(** * HousePrice-API: the /predict handler of [main.py]

    A shallow embedding of the request handler [predict], of the module-level
    artifact loading that precedes it, and of the few pandas operations the
    handler uses on its one-row [DataFrame].

    - Python exceptions are values of [exn]; code that may raise returns a
      [result], sequenced with [x <- c ;; k].
    - A cell of the frame is a [value]: an entry of an [int64] column or of a
      [float64] column.  Integer columns are 64-bit: their arithmetic is
      [Z] arithmetic followed by [wrap64].  Floating-point columns are IEEE
      binary64, Rocq's primitive [float].
    - The frame has one row, so it is the ordered list of its columns, each
      with its single cell. *)

From Stdlib Require Import ZArith List String Bool Lia.
From Stdlib Require Import PrimFloat SpecFloat FloatOps FloatAxioms.
From Stdlib Require Import Permutation.
Import ListNotations.

Local Open Scope string_scope.
Local Open Scope Z_scope.

(** ** Exceptions and results *)

(** The exceptions the handler can meet: the two pandas/numpy raise on a
    missing column and on an index out of bounds, the [RuntimeError] of the
    module's loading code, and whatever instance of [Exception] the scaler,
    the model or the deserializer raise ([OtherError], with its class name
    and message). *)
Inductive exn : Type :=
| KeyError (key : string)
| IndexError (msg : string)
| RuntimeError (msg : string)
| OtherError (cls msg : string).

(** [str(e)]: the message; a [KeyError] prints the repr of its key. *)
Definition str (e : exn) : string :=
  match e with
  | KeyError key => "'" ++ key ++ "'"
  | IndexError msg => msg
  | RuntimeError msg => msg
  | OtherError _ msg => msg
  end.

Inductive result (A : Type) : Type :=
| Ok (a : A)
| Raise (e : exn).

Arguments Ok {A} a.
Arguments Raise {A} e.

Definition bind {A B : Type} (c : result A) (k : A -> result B) : result B :=
  match c with
  | Ok a => k a
  | Raise e => Raise e
  end.

Notation "x <- c ;; k" := (bind c (fun x => k))
  (at level 61, c at next level, right associativity).

(** ** Cells: int64 and float64 *)

Module Int64.

Definition min_signed : Z := - 2 ^ 63.
Definition max_signed : Z := 2 ^ 63 - 1.

(** Two's complement wrap-around of a 64-bit signed integer. *)
Definition wrap64 (z : Z) : Z := (z + 2 ^ 63) mod 2 ^ 64 - 2 ^ 63.

Definition in_range (z : Z) : Prop := min_signed <= z <= max_signed.

Definition add (x y : Z) : Z := wrap64 (x + y).
Definition mul (x y : Z) : Z := wrap64 (x * y).

End Int64.

(** Conversion of an integer to binary64, rounding to nearest even. *)
Definition float_of_Z (z : Z) : float :=
  SF2Prim (binary_normalize prec emax z 0 false).

Inductive value : Type :=
| VInt (z : Z)
| VFloat (f : float).

(** [float(v)], and the cast numpy applies to an integer operand that meets a
    float one. *)
Definition to_float (v : value) : float :=
  match v with
  | VInt z => float_of_Z z
  | VFloat f => f
  end.

(** [a + b] and [a * b] on two columns: integer arithmetic when both are
    int64, float arithmetic otherwise. *)
Definition vadd (a b : value) : value :=
  match a, b with
  | VInt x, VInt y => VInt (Int64.add x y)
  | _, _ => VFloat (to_float a + to_float b)
  end.

Definition vmul (a b : value) : value :=
  match a, b with
  | VInt x, VInt y => VInt (Int64.mul x y)
  | _, _ => VFloat (to_float a * to_float b)
  end.

(** ** The one-row DataFrame *)

Definition DataFrame : Type := list (string * value).

Module Frame.

Definition columns (df : DataFrame) : list string := map fst df.
Definition values (df : DataFrame) : list value := map snd df.

(** [df[key]]: the column, or [KeyError]. *)
Fixpoint getitem (df : DataFrame) (key : string) : result value :=
  match df with
  | [] => Raise (KeyError key)
  | (k, v) :: rest => if String.eqb k key then Ok v else getitem rest key
  end.

(** [df[key] = v]: an existing column is replaced where it stands, a new
    one is added after the last. *)
Fixpoint setitem (df : DataFrame) (key : string) (v : value) : DataFrame :=
  match df with
  | [] => [(key, v)]
  | (k, w) :: rest =>
      if String.eqb k key then (k, v) :: rest
      else (k, w) :: setitem rest key v
  end.

(** [df[keys]]: the listed columns, in the order of the list; [KeyError]
    when one is missing.  (pandas names the missing columns in the message
    of its exception; here the exception carries the first of them.  The
    handler only selects columns that exist.) *)
Fixpoint getitem_list (df : DataFrame) (keys : list string) : result DataFrame :=
  match keys with
  | [] => Ok []
  | k :: ks =>
      v <- getitem df k ;;
      rest <- getitem_list df ks ;;
      Ok ((k, v) :: rest)
  end.

Fixpoint ints (vs : list value) : option (list Z) :=
  match vs with
  | [] => Some []
  | VInt z :: rest => option_map (cons z) (ints rest)
  | VFloat _ :: _ => None
  end.

Definition is_nan (f : float) : bool := negb (PrimFloat.eqb f f).

(** [df.sum(axis=1)] on the single row: columns that are all int64 add up
    in int64; otherwise the cells are cast to float64 and added, a NaN
    counting for nothing.  The handler applies it to the six int64 amenity
    columns; the properties below use the int64 case, on at least one
    column. *)
Definition sum_axis1 (df : DataFrame) : value :=
  match ints (values df) with
  | Some zs => VInt (fold_left Int64.add zs 0)
  | None =>
      VFloat (fold_left
                (fun acc v => let f := to_float v in
                              if is_nan f then acc else (acc + f)%float)
                (values df) 0%float)
  end.

End Frame.

(** ** The loaded artifacts

    The two objects [joblib.load] returns are opaque to [main.py]; it uses
    one method of each.  [transform] receives the one-column frame
    [df[['area']]], that is its single cell, and returns the cell of the
    array that replaces it.  [model_predict] receives the assembled frame and
    returns the array of predictions.  Either call may raise. *)

Record Scaler : Type := { transform : value -> result value }.
Record Model : Type := { model_predict : DataFrame -> result (list value) }.

(** ** The request: [class HouseData(BaseModel)]

    The integer fields are the cells of the int64 columns the frame gives
    them, which is what pandas infers for a Python int of at most 64 bits
    ([int64_record] below); the embedding describes the handler on such
    requests. *)

Record HouseData : Type := {
  area : float;
  bedrooms : Z;
  bathrooms : Z;
  stories : Z;
  parking : Z;
  furnishingstatus : Z;
  mainroad_yes : Z;
  guestroom_yes : Z;
  basement_yes : Z;
  hotwaterheating_yes : Z;
  airconditioning_yes : Z;
  prefarea_yes : Z
}.

(** [pd.DataFrame([data.dict()])]: one column per field, in the order of the
    class; [area] is a float64 column and the others are int64 columns, for
    a request within [int64_record] (for a larger Python int pandas chooses
    another column type, which this frame does not describe). *)
Definition dict (data : HouseData) : DataFrame :=
  [ ("area", VFloat (area data));
    ("bedrooms", VInt (bedrooms data));
    ("bathrooms", VInt (bathrooms data));
    ("stories", VInt (stories data));
    ("parking", VInt (parking data));
    ("furnishingstatus", VInt (furnishingstatus data));
    ("mainroad_yes", VInt (mainroad_yes data));
    ("guestroom_yes", VInt (guestroom_yes data));
    ("basement_yes", VInt (basement_yes data));
    ("hotwaterheating_yes", VInt (hotwaterheating_yes data));
    ("airconditioning_yes", VInt (airconditioning_yes data));
    ("prefarea_yes", VInt (prefarea_yes data)) ].

Definition feature_order : list string :=
  [ "area"; "bedrooms"; "bathrooms"; "stories"; "parking";
    "furnishingstatus"; "mainroad_yes"; "guestroom_yes";
    "basement_yes"; "hotwaterheating_yes"; "airconditioning_yes";
    "prefarea_yes"; "area_bedrooms"; "stories_bathrooms";
    "luxury_index"; "amenities_count" ].

Definition amenity_cols : list string :=
  [ "mainroad_yes"; "guestroom_yes"; "basement_yes";
    "hotwaterheating_yes"; "airconditioning_yes"; "prefarea_yes" ].

(** ** The handler *)

(** Lines 47 to 69 of [predict]: from the request to the frame handed to the
    model. *)
Definition features (scaler : Scaler) (data : HouseData) : result DataFrame :=
  let df := dict data in
  (* df[['area']] = scaler.transform(df[['area']]) *)
  raw <- Frame.getitem df "area" ;;
  scaled <- transform scaler raw ;;
  let df := Frame.setitem df "area" scaled in
  (* df['area_bedrooms'] = df['area'] * df['bedrooms'] *)
  a <- Frame.getitem df "area" ;;
  b <- Frame.getitem df "bedrooms" ;;
  let df := Frame.setitem df "area_bedrooms" (vmul a b) in
  (* df['stories_bathrooms'] = df['stories'] * df['bathrooms'] *)
  s <- Frame.getitem df "stories" ;;
  t <- Frame.getitem df "bathrooms" ;;
  let df := Frame.setitem df "stories_bathrooms" (vmul s t) in
  (* df['amenities_count'] = df[amenity_cols].sum(axis=1) *)
  amenities <- Frame.getitem_list df amenity_cols ;;
  let df := Frame.setitem df "amenities_count" (Frame.sum_axis1 amenities) in
  (* df['luxury_index'] = df['airconditioning_yes'] + df['hotwaterheating_yes']
                          + df['guestroom_yes'] + df['basement_yes'] *)
  ac <- Frame.getitem df "airconditioning_yes" ;;
  hw <- Frame.getitem df "hotwaterheating_yes" ;;
  gr <- Frame.getitem df "guestroom_yes" ;;
  bs <- Frame.getitem df "basement_yes" ;;
  let df := Frame.setitem df "luxury_index" (vadd (vadd (vadd ac hw) gr) bs) in
  (* df = df[feature_order] *)
  Frame.getitem_list df feature_order.

(** [pred[0]] on the array the model returns. *)
Definition first_output (pred : list value) : result value :=
  match pred with
  | p :: _ => Ok p
  | [] => Raise (IndexError "index 0 is out of bounds for axis 0 with size 0")
  end.

(** Lines 71 and 72: [pred = model.predict(df)], then [float(pred[0])]. *)
Definition infer (model : Model) (df : DataFrame) : result float :=
  pred <- model_predict model df ;;
  p <- first_output pred ;;
  Ok (to_float p).

(** The body of the [try]. *)
Definition predict_body (scaler : Scaler) (model : Model) (data : HouseData)
  : result float :=
  df <- features scaler data ;;
  infer model df.

(** The two payloads: [{"prediction": p}] and [{"error": s}]. *)
Inductive payload : Type :=
| Prediction (p : float)
| Error (s : string).

(** [except Exception as e: return {"error": str(e)}]. *)
Definition reply (r : result float) : payload :=
  match r with
  | Ok p => Prediction p
  | Raise e => Error (str e)
  end.

Definition predict (scaler : Scaler) (model : Model) (data : HouseData) : payload :=
  reply (predict_body scaler model data).

(** ** Start-up: lines 16 to 20

    What [joblib.load] makes of each of the two fixed paths. *)
Record Files : Type := {
  model_pkl : result Model;     (* joblib.load("model.pkl") *)
  scaler_pkl : result Scaler    (* joblib.load("scaler.pkl") *)
}.

Definition load_artifacts (fs : Files) : result (Model * Scaler) :=
  match (model <- model_pkl fs ;;
         scaler <- scaler_pkl fs ;;
         Ok (model, scaler)) with
  | Ok loaded => Ok loaded
  | Raise e => Raise (RuntimeError ("Error loading model or scaler: " ++ str e))
  end.

(** The process after the module has run: the route is registered only when
    the module body reached its [@app.post] line, and then it serves with the
    two loaded objects. *)
Inductive process : Type :=
| Serving (model : Model) (scaler : Scaler)
| Aborted (e : exn).

Definition startup (fs : Files) : process :=
  match load_artifacts fs with
  | Ok (model, scaler) => Serving model scaler
  | Raise e => Aborted e
  end.

Definition serve (p : process) (data : HouseData) : option payload :=
  match p with
  | Serving model scaler => Some (predict scaler model data)
  | Aborted _ => None
  end.

(** ** The stand-ins of the specification's worked example

    A scaler whose [transform] returns its argument, and a model that returns
    the sum of the vector it is given. *)

Definition identity_scaler : Scaler := {| transform := fun v => Ok v |}.

Definition sum_model : Model :=
  {| model_predict := fun df =>
       Ok [VFloat (fold_left (fun acc v => (acc + to_float v)%float)
                             (Frame.values df) 0%float)] |}.

Definition example_record : HouseData :=
  {| area := 1000; bedrooms := 2; bathrooms := 1; stories := 1; parking := 1;
     furnishingstatus := 1; mainroad_yes := 1; guestroom_yes := 0;
     basement_yes := 0; hotwaterheating_yes := 0; airconditioning_yes := 1;
     prefarea_yes := 0 |}.

(** A scaler that is not the identity: it doubles its argument. *)
Definition doubling_scaler : Scaler :=
  {| transform := fun v => Ok (VFloat (2 * to_float v)) |}.

(** A scaler and a model whose call raises, a model that returns an empty
    array, and artifact files that cannot be read. *)
Definition failing_scaler : Scaler :=
  {| transform := fun _ =>
       Raise (OtherError "ValueError" "could not convert string to float") |}.

Definition failing_model : Model :=
  {| model_predict := fun _ =>
       Raise (OtherError "ValueError" "X has 16 features, but the model expects 12") |}.

Definition empty_model : Model := {| model_predict := fun _ => Ok [] |}.

Definition no_files : Files :=
  {| model_pkl := Raise (OtherError "FileNotFoundError" "No such file: model.pkl");
     scaler_pkl := Raise (OtherError "FileNotFoundError" "No such file: scaler.pkl") |}.

Definition no_scaler_file : Files :=
  {| model_pkl := Ok sum_model;
     scaler_pkl := Raise (OtherError "FileNotFoundError" "No such file: scaler.pkl") |}.

(** The record of the specification's asymmetry test: of the amenity fields
    only [mainroad_yes] and [prefarea_yes] are set. *)
Definition asymmetry_record : HouseData :=
  {| area := 1000; bedrooms := 2; bathrooms := 1; stories := 1; parking := 1;
     furnishingstatus := 1; mainroad_yes := 1; guestroom_yes := 0;
     basement_yes := 0; hotwaterheating_yes := 0; airconditioning_yes := 0;
     prefarea_yes := 1 |}.

(** ** Observations used by the statements *)

(** A named entry of the frame handed to the model. *)
Definition feature (scaler : Scaler) (data : HouseData) (name : string)
  : result value :=
  df <- features scaler data ;;
  Frame.getitem df name.

(** The frame [features] assembles once the scaler has answered [scaled]. *)
Definition assembled (scaled : value) (data : HouseData) : DataFrame :=
  [ ("area", scaled);
    ("bedrooms", VInt (bedrooms data));
    ("bathrooms", VInt (bathrooms data));
    ("stories", VInt (stories data));
    ("parking", VInt (parking data));
    ("furnishingstatus", VInt (furnishingstatus data));
    ("mainroad_yes", VInt (mainroad_yes data));
    ("guestroom_yes", VInt (guestroom_yes data));
    ("basement_yes", VInt (basement_yes data));
    ("hotwaterheating_yes", VInt (hotwaterheating_yes data));
    ("airconditioning_yes", VInt (airconditioning_yes data));
    ("prefarea_yes", VInt (prefarea_yes data));
    ("area_bedrooms", vmul scaled (VInt (bedrooms data)));
    ("stories_bathrooms", VInt (Int64.mul (stories data) (bathrooms data)));
    ("luxury_index",
      VInt (Int64.add
              (Int64.add
                 (Int64.add (airconditioning_yes data) (hotwaterheating_yes data))
                 (guestroom_yes data))
              (basement_yes data)));
    ("amenities_count",
      VInt (fold_left Int64.add
              [ mainroad_yes data; guestroom_yes data; basement_yes data;
                hotwaterheating_yes data; airconditioning_yes data;
                prefarea_yes data ] 0)) ].

(** The plain integer sums the statements compare the columns with. *)
Definition luxury_sum (data : HouseData) : Z :=
  airconditioning_yes data + hotwaterheating_yes data
  + guestroom_yes data + basement_yes data.

Definition amenity_sum (data : HouseData) : Z :=
  mainroad_yes data + guestroom_yes data + basement_yes data
  + hotwaterheating_yes data + airconditioning_yes data + prefarea_yes data.

Definition flag (z : Z) : Prop := z = 0 \/ z = 1.

(** Every amenity field is 0 or 1, as the data model expects. *)
Definition binary_amenities (data : HouseData) : Prop :=
  flag (mainroad_yes data) /\ flag (guestroom_yes data)
  /\ flag (basement_yes data) /\ flag (hotwaterheating_yes data)
  /\ flag (airconditioning_yes data) /\ flag (prefarea_yes data).

(** The integer fields fit the int64 columns of the frame. *)
Definition int64_record (data : HouseData) : Prop :=
  Forall Int64.in_range
    [ bedrooms data; bathrooms data; stories data; parking data;
      furnishingstatus data; mainroad_yes data; guestroom_yes data;
      basement_yes data; hotwaterheating_yes data; airconditioning_yes data;
      prefarea_yes data ].

Definition cell_in_range (v : value) : Prop :=
  match v with
  | VInt z => Int64.in_range z
  | VFloat _ => True
  end.

(** The record with two of its fields replaced. *)
Definition with_mainroad_prefarea (data : HouseData) (m p : Z) : HouseData :=
  {| area := area data;
     bedrooms := bedrooms data;
     bathrooms := bathrooms data;
     stories := stories data;
     parking := parking data;
     furnishingstatus := furnishingstatus data;
     mainroad_yes := m;
     guestroom_yes := guestroom_yes data;
     basement_yes := basement_yes data;
     hotwaterheating_yes := hotwaterheating_yes data;
     airconditioning_yes := airconditioning_yes data;
     prefarea_yes := p |}.

(** ** The frame before the final selection

    Lines 47 to 67 of [predict]: the scaling and the four assignments, up to
    but not including [df = df[feature_order]]. *)
Definition engineer (scaler : Scaler) (data : HouseData) : result DataFrame :=
  let df := dict data in
  raw <- Frame.getitem df "area" ;;
  scaled <- transform scaler raw ;;
  let df := Frame.setitem df "area" scaled in
  a <- Frame.getitem df "area" ;;
  b <- Frame.getitem df "bedrooms" ;;
  let df := Frame.setitem df "area_bedrooms" (vmul a b) in
  s <- Frame.getitem df "stories" ;;
  t <- Frame.getitem df "bathrooms" ;;
  let df := Frame.setitem df "stories_bathrooms" (vmul s t) in
  amenities <- Frame.getitem_list df amenity_cols ;;
  let df := Frame.setitem df "amenities_count" (Frame.sum_axis1 amenities) in
  ac <- Frame.getitem df "airconditioning_yes" ;;
  hw <- Frame.getitem df "hotwaterheating_yes" ;;
  gr <- Frame.getitem df "guestroom_yes" ;;
  bs <- Frame.getitem df "basement_yes" ;;
  Ok (Frame.setitem df "luxury_index" (vadd (vadd (vadd ac hw) gr) bs)).

(** The names of the four columns the handler adds, in the order of
    [feature_order]. *)
Definition derived_names : list string :=
  [ "area_bedrooms"; "stories_bathrooms"; "luxury_index"; "amenities_count" ].

(** A frame of int64 columns. *)
Definition int_frame (cols : list (string * Z)) : DataFrame :=
  map (fun c => (fst c, VInt (snd c))) cols.

Definition zsum (zs : list Z) : Z := fold_right Z.add 0 zs.

(** The fields the derived features are computed from, apart from [area]. *)
Definition derived_inputs (data : HouseData) : list Z :=
  [ bedrooms data; bathrooms data; stories data;
    mainroad_yes data; guestroom_yes data; basement_yes data;
    hotwaterheating_yes data; airconditioning_yes data; prefarea_yes data ].

(** The example record with a NaN for its area. *)
Definition nan_record : HouseData :=
  {| area := nan; bedrooms := 2; bathrooms := 1; stories := 1; parking := 1;
     furnishingstatus := 1; mainroad_yes := 1; guestroom_yes := 0;
     basement_yes := 0; hotwaterheating_yes := 0; airconditioning_yes := 1;
     prefarea_yes := 0 |}.

(** Requests whose integer fields fit 64 bits but whose sums or products
    do not. *)
Definition luxury_overflow_record : HouseData :=
  {| area := 1000; bedrooms := 2; bathrooms := 1; stories := 1; parking := 1;
     furnishingstatus := 1; mainroad_yes := 0; guestroom_yes := 0;
     basement_yes := 0; hotwaterheating_yes := 1;
     airconditioning_yes := 2 ^ 63 - 1; prefarea_yes := 0 |}.

Definition road_overflow_record : HouseData :=
  {| area := 1000; bedrooms := 2; bathrooms := 1; stories := 1; parking := 1;
     furnishingstatus := 1; mainroad_yes := 2 ^ 63 - 1; guestroom_yes := 0;
     basement_yes := 0; hotwaterheating_yes := 0; airconditioning_yes := 0;
     prefarea_yes := 1 |}.

Definition product_overflow_record : HouseData :=
  {| area := 1000; bedrooms := 2; bathrooms := 3037000500;
     stories := 3037000500; parking := 1; furnishingstatus := 1;
     mainroad_yes := 1; guestroom_yes := 0; basement_yes := 0;
     hotwaterheating_yes := 0; airconditioning_yes := 1; prefarea_yes := 0 |}.

(** * Properties *)

(** ** Results *)

Lemma bind_Ok {A B : Type} (c : result A) (k : A -> result B) (b : B) :
  (x <- c ;; k x) = Ok b -> exists a, c = Ok a /\ k a = Ok b.
Proof.
  destruct c as [a | e]; simpl; intros H.
  - exists a. split; [reflexivity | exact H].
  - discriminate H.
Qed.

Lemma bind_Raise {A B : Type} (c : result A) (k : A -> result B) (e : exn) :
  (x <- c ;; k x) = Raise e ->
  c = Raise e \/ exists a, c = Ok a /\ k a = Raise e.
Proof.
  destruct c as [a | e']; simpl; intros H.
  - right. exists a. split; [reflexivity | exact H].
  - left. injection H as ->. reflexivity.
Qed.

(** ** The handler in closed form *)

Lemma features_closed_form (scaler : Scaler) (data : HouseData) :
  features scaler data =
  (scaled <- transform scaler (VFloat (area data)) ;; Ok (assembled scaled data)).
Proof.
  unfold features, assembled.
  destruct data; simpl.
  destruct (transform scaler (VFloat area0)) as [scaled | e]; simpl.
  - reflexivity.
  - reflexivity.
Qed.

(** ** Arithmetic of the int64 columns *)

Lemma wrap64_in_range (z : Z) : Int64.in_range z -> Int64.wrap64 z = z.
Proof.
  unfold Int64.in_range, Int64.min_signed, Int64.max_signed, Int64.wrap64.
  intros H. rewrite Z.mod_small; lia.
Qed.

Lemma wrap64_range (z : Z) : Int64.in_range (Int64.wrap64 z).
Proof.
  unfold Int64.in_range, Int64.min_signed, Int64.max_signed, Int64.wrap64.
  pose proof (Z.mod_pos_bound (z + 2 ^ 63) (2 ^ 64)). lia.
Qed.

Lemma wrap64_add_l (a b : Z) :
  Int64.wrap64 (Int64.wrap64 a + b) = Int64.wrap64 (a + b).
Proof.
  unfold Int64.wrap64. f_equal.
  replace ((a + 2 ^ 63) mod 2 ^ 64 - 2 ^ 63 + b + 2 ^ 63)
    with ((a + 2 ^ 63) mod 2 ^ 64 + b) by lia.
  rewrite Zplus_mod_idemp_l. f_equal. lia.
Qed.

Lemma add_wrap_l (a b : Z) : Int64.add (Int64.wrap64 a) b = Int64.wrap64 (a + b).
Proof. unfold Int64.add. apply wrap64_add_l. Qed.

Lemma luxury_chain (data : HouseData) :
  Int64.add
    (Int64.add
       (Int64.add (airconditioning_yes data) (hotwaterheating_yes data))
       (guestroom_yes data))
    (basement_yes data)
  = Int64.wrap64 (luxury_sum data).
Proof.
  unfold luxury_sum.
  unfold Int64.add at 3. rewrite !add_wrap_l. reflexivity.
Qed.

Lemma amenity_fold (data : HouseData) :
  fold_left Int64.add
    [ mainroad_yes data; guestroom_yes data; basement_yes data;
      hotwaterheating_yes data; airconditioning_yes data; prefarea_yes data ] 0
  = Int64.wrap64 (amenity_sum data).
Proof.
  unfold amenity_sum. cbn [fold_left].
  unfold Int64.add at 6. rewrite !add_wrap_l. reflexivity.
Qed.

Lemma binary_amenities_in_range (data : HouseData) :
  binary_amenities data ->
  Int64.in_range (luxury_sum data) /\ Int64.in_range (amenity_sum data).
Proof.
  unfold binary_amenities, flag, luxury_sum, amenity_sum,
    Int64.in_range, Int64.min_signed, Int64.max_signed.
  lia.
Qed.

(** ** Entries of the assembled frame *)

Lemma feature_of_assembled (scaler : Scaler) (data : HouseData)
      (scaled : value) (name : string) :
  transform scaler (VFloat (area data)) = Ok scaled ->
  feature scaler data name = Frame.getitem (assembled scaled data) name.
Proof.
  intros H. unfold feature.
  rewrite features_closed_form, H. reflexivity.
Qed.

(** The int64 columns stay int64: on a request whose integer fields fit 64
    bits, every integer cell handed to the model does. *)
Lemma assembled_cells_in_range (scaled : value) (data : HouseData) :
  int64_record data ->
  cell_in_range scaled ->
  Forall cell_in_range (Frame.values (assembled scaled data)).
Proof.
  unfold int64_record. intros R S.
  repeat match goal with
         | H : Forall _ (_ :: _) |- _ => inversion H; clear H; subst
         end.
  unfold assembled, Frame.values. cbn [map snd].
  rewrite amenity_fold.
  assert (P : cell_in_range (vmul scaled (VInt (bedrooms data)))).
  { destruct scaled as [z | f]; [apply wrap64_range | exact I]. }
  repeat (apply Forall_cons;
          [first [exact S | exact P | assumption | apply wrap64_range] |]).
  apply Forall_nil.
Qed.

(** Closed instances of [int64_record] are settled by evaluation. *)
Ltac int64_record_by_evaluation :=
  unfold int64_record;
  repeat (apply Forall_cons; [vm_compute; split; discriminate |]);
  apply Forall_nil.

(** ** The feature vector *)



(** C2, as amended. On a request whose integer fields fit 64 bits,
    luxury_index is airconditioning_yes + hotwaterheating_yes + guestroom_yes
    + basement_yes added in the int64 columns, that is the sum modulo 2^64
    read as a signed 64-bit integer: the integer sum itself whenever that
    fits, as it does for 0/1 fields.  It does not change with mainroad_yes
    and prefarea_yes, and it is 0 when only those two fields are set. *)
Theorem luxury_index_four_fields (scaler : Scaler) (data : HouseData)
        (scaled : value) :
  transform scaler (VFloat (area data)) = Ok scaled ->
  int64_record data ->
  feature scaler data "luxury_index"
  = Ok (vadd (vadd (vadd (VInt (airconditioning_yes data))
                         (VInt (hotwaterheating_yes data)))
                   (VInt (guestroom_yes data)))
             (VInt (basement_yes data)))
  /\ feature scaler data "luxury_index" = Ok (VInt (Int64.wrap64 (luxury_sum data)))
  /\ (Int64.in_range (luxury_sum data) ->
      feature scaler data "luxury_index" = Ok (VInt (luxury_sum data)))
  /\ (binary_amenities data ->
      feature scaler data "luxury_index" = Ok (VInt (luxury_sum data)))
  /\ (forall m p : Z,
      Int64.in_range m -> Int64.in_range p ->
      feature scaler (with_mainroad_prefarea data m p) "luxury_index"
      = feature scaler data "luxury_index")
  /\ (mainroad_yes data = 1 -> prefarea_yes data = 1 ->
      guestroom_yes data = 0 -> basement_yes data = 0 ->
      hotwaterheating_yes data = 0 -> airconditioning_yes data = 0 ->
      feature scaler data "luxury_index" = Ok (VInt 0)).
Proof.
  intros H _.
  assert (L : feature scaler data "luxury_index"
              = Ok (VInt (Int64.wrap64 (luxury_sum data)))).
  { rewrite (feature_of_assembled scaler data scaled _ H).
    cbn. rewrite luxury_chain. reflexivity. }
  split; [| split; [exact L | split; [| split; [| split]]]].
  - rewrite (feature_of_assembled scaler data scaled _ H). reflexivity.
  - intros R. rewrite L, (wrap64_in_range _ R). reflexivity.
  - intros B. destruct (binary_amenities_in_range data B) as [R _].
    rewrite L, (wrap64_in_range _ R). reflexivity.
  - intros m p _ _.
    rewrite (feature_of_assembled scaler (with_mainroad_prefarea data m p)
               scaled _ H).
    rewrite (feature_of_assembled scaler data scaled _ H).
    reflexivity.
  - intros _ _ Hg Hb Hh Ha. rewrite L. unfold luxury_sum.
    rewrite Hg, Hb, Hh, Ha. reflexivity.
Qed.

Lemma luxury_index_four_fields_witness :
  feature identity_scaler asymmetry_record "luxury_index" = Ok (VInt 0)
  /\ feature identity_scaler example_record "luxury_index" = Ok (VInt 1).
Proof.
  assert (RA : int64_record asymmetry_record) by int64_record_by_evaluation.
  assert (RE : int64_record example_record) by int64_record_by_evaluation.
  split.
  - apply (luxury_index_four_fields identity_scaler asymmetry_record
             (VFloat 1000) eq_refl RA); reflexivity.
  - apply (proj1 (proj2 (proj2 (luxury_index_four_fields identity_scaler
                                  example_record (VFloat 1000) eq_refl RE)))).
    vm_compute. split; discriminate.
Defined.

(** C2 as it was stated fails: with airconditioning_yes = 2^63 - 1 and
    hotwaterheating_yes = 1, both int64, the column sum wraps to -2^63 and
    is not the integer sum 2^63. *)
Lemma luxury_index_overflow :
  int64_record luxury_overflow_record
  /\ luxury_sum luxury_overflow_record = 2 ^ 63
  /\ feature identity_scaler luxury_overflow_record "luxury_index"
     = Ok (VInt (- 2 ^ 63))
  /\ feature identity_scaler luxury_overflow_record "luxury_index"
     <> Ok (VInt (luxury_sum luxury_overflow_record)).
Proof.
  split; [int64_record_by_evaluation | split; [reflexivity | split]].
  - vm_compute. reflexivity.
  - intros H. vm_compute in H. discriminate H.
Qed.




(** C4, as amended. On a request whose integer fields fit 64 bits, and for
    a scaler that answers with a float or with an integer that fits,
    area_bedrooms is the product of the scaled area, the value the scaler
    returned and not the raw field, with bedrooms; stories_bathrooms is the
    product of stories and bathrooms.  The products are those of the columns:
    float64 for the first when the scaler returns a float, int64 for the
    second, that is the product modulo 2^64 read as a signed 64-bit integer,
    which is the integer product whenever that fits; a zero factor is no
    exception. *)
Theorem product_features (scaler : Scaler) (data : HouseData) (scaled : value) :
  transform scaler (VFloat (area data)) = Ok scaled ->
  int64_record data ->
  cell_in_range scaled ->
  feature scaler data "area" = Ok scaled
  /\ feature scaler data "area_bedrooms" = Ok (vmul scaled (VInt (bedrooms data)))
  /\ (forall f : float, scaled = VFloat f ->
      feature scaler data "area_bedrooms"
      = Ok (VFloat (f * float_of_Z (bedrooms data))))
  /\ feature scaler data "stories_bathrooms"
     = Ok (vmul (VInt (stories data)) (VInt (bathrooms data)))
  /\ feature scaler data "stories_bathrooms"
     = Ok (VInt (Int64.wrap64 (stories data * bathrooms data)))
  /\ (Int64.in_range (stories data * bathrooms data) ->
      feature scaler data "stories_bathrooms"
      = Ok (VInt (stories data * bathrooms data)))
  /\ (stories data = 0 \/ bathrooms data = 0 ->
      feature scaler data "stories_bathrooms" = Ok (VInt 0)).
Proof.
  intros H _ _.
  assert (P : feature scaler data "stories_bathrooms"
              = Ok (VInt (Int64.wrap64 (stories data * bathrooms data)))).
  { rewrite (feature_of_assembled scaler data scaled _ H). reflexivity. }
  repeat split.
  - rewrite (feature_of_assembled scaler data scaled _ H). reflexivity.
  - rewrite (feature_of_assembled scaler data scaled _ H). reflexivity.
  - intros f ->. rewrite (feature_of_assembled scaler data _ _ H). reflexivity.
  - exact P.
  - exact P.
  - intros R. rewrite P, (wrap64_in_range _ R). reflexivity.
  - intros Z0. rewrite P.
    replace (stories data * bathrooms data) with 0 by (destruct Z0 as [E | E]; rewrite E; lia).
    reflexivity.
Qed.

Lemma product_features_witness :
  feature doubling_scaler example_record "area" = Ok (VFloat 2000)
  /\ feature doubling_scaler example_record "area_bedrooms" = Ok (VFloat 4000)
  /\ feature doubling_scaler example_record "stories_bathrooms" = Ok (VInt 1).
Proof.
  assert (R : int64_record example_record) by int64_record_by_evaluation.
  pose proof (product_features doubling_scaler example_record
                (VFloat 2000) eq_refl R I) as (A & _ & B & _ & _ & P & _).
  split; [exact A | split].
  - apply (B 2000%float). reflexivity.
  - apply P. vm_compute. split; discriminate.
Defined.

(** C4 as it was stated fails: with stories = bathrooms = 3037000500, both
    int64, the column product wraps to -9223372036709301616 and is not the
    integer product 9223372037000250000. *)
Lemma stories_bathrooms_overflow :
  int64_record product_overflow_record
  /\ stories product_overflow_record * bathrooms product_overflow_record
     = 9223372037000250000
  /\ feature identity_scaler product_overflow_record "stories_bathrooms"
     = Ok (VInt (-9223372036709301616))
  /\ feature identity_scaler product_overflow_record "stories_bathrooms"
     <> Ok (VInt (stories product_overflow_record
                  * bathrooms product_overflow_record)).
Proof.
  split; [int64_record_by_evaluation | split; [reflexivity | split]].
  - vm_compute. reflexivity.
  - intros H. vm_compute in H. discriminate H.
Qed.



(** C6. With the identity scaler and the model that sums its input, the
    record of the worked example is assembled into
    [1000,2,1,1,1,1,1,0,0,0,1,0,2000,1,1,2] and the handler answers 3012. *)
Theorem worked_example :
  features identity_scaler example_record
  = Ok [ ("area", VFloat 1000); ("bedrooms", VInt 2); ("bathrooms", VInt 1);
         ("stories", VInt 1); ("parking", VInt 1); ("furnishingstatus", VInt 1);
         ("mainroad_yes", VInt 1); ("guestroom_yes", VInt 0);
         ("basement_yes", VInt 0); ("hotwaterheating_yes", VInt 0);
         ("airconditioning_yes", VInt 1); ("prefarea_yes", VInt 0);
         ("area_bedrooms", VFloat 2000); ("stories_bathrooms", VInt 1);
         ("luxury_index", VInt 1); ("amenities_count", VInt 2) ]
  /\ (exists df,
        features identity_scaler example_record = Ok df
        /\ map to_float (Frame.values df)
           = [ 1000; 2; 1; 1; 1; 1; 1; 0; 0; 0; 1; 0; 2000; 1; 1; 2 ]%float)
  /\ predict identity_scaler sum_model example_record = Prediction 3012.
Proof.
  split; [| split].
  - vm_compute. reflexivity.
  - eexists. split; [vm_compute; reflexivity | vm_compute; reflexivity].
  - vm_compute. reflexivity.
Qed.

(** ** The request boundary *)

Lemma features_Ok_inv (scaler : Scaler) (data : HouseData) (df : DataFrame) :
  features scaler data = Ok df ->
  exists scaled,
    transform scaler (VFloat (area data)) = Ok scaled
    /\ df = assembled scaled data.
Proof.
  rewrite features_closed_form. intros H.
  destruct (bind_Ok _ _ _ H) as (scaled & T & E).
  exists scaled. split; [exact T |].
  injection E as <-. reflexivity.
Qed.

Lemma features_Raise_inv (scaler : Scaler) (data : HouseData) (e : exn) :
  features scaler data = Raise e ->
  transform scaler (VFloat (area data)) = Raise e.
Proof.
  rewrite features_closed_form. intros H.
  destruct (bind_Raise _ _ _ H) as [T | (scaled & _ & E)].
  - exact T.
  - discriminate E.
Qed.



(** C8. When the scaler answers and the model returns at least one output
    on the assembled frame of 16 columns, the handler returns the payload
    [{"prediction": p}] where [p] is [float] of the first output; and a
    prediction payload never arises in another way. *)
Theorem prediction_payload (scaler : Scaler) (model : Model) (data : HouseData) :
  (forall df p rest,
      features scaler data = Ok df ->
      model_predict model df = Ok (p :: rest) ->
      predict scaler model data = Prediction (to_float p)
      /\ List.length df = 16%nat)
  /\ (forall q,
      predict scaler model data = Prediction q ->
      exists df p rest,
        features scaler data = Ok df
        /\ List.length df = 16%nat
        /\ model_predict model df = Ok (p :: rest)
        /\ q = to_float p).
Proof.
  split.
  - intros df p rest F M. split.
    + unfold predict, predict_body, infer.
      rewrite F. simpl. rewrite M. reflexivity.
    + destruct (features_Ok_inv _ _ _ F) as (scaled & _ & ->). reflexivity.
  - intros q. unfold predict, predict_body, infer.
    destruct (features scaler data) as [df | e] eqn:F; simpl; [| discriminate].
    destruct (model_predict model df) as [[| p rest] | e] eqn:M; simpl;
      try discriminate.
    intros Q. injection Q as <-.
    exists df, p, rest.
    split; [reflexivity | split; [| split; [exact M | reflexivity]]].
    destruct (features_Ok_inv _ _ _ F) as (scaled & _ & ->). reflexivity.
Qed.

Lemma prediction_payload_witness :
  predict doubling_scaler sum_model example_record = Prediction 6012
  /\ List.length (assembled (VFloat 2000) example_record) = 16%nat.
Proof.
  apply (proj1 (prediction_payload doubling_scaler sum_model example_record)
           (assembled (VFloat 2000) example_record) (VFloat 6012) []).
  - reflexivity.
  - reflexivity.
Defined.

(** ** Start-up *)

(** C9. If deserializing the model artifact or the scaler artifact fails,
    the module's loading code raises its [RuntimeError], with the failure's
    text in the message, the process is aborted and answers no request.
    There is no other way out of a failed load: a process that serves holds
    both artifacts, each as its file deserialized. *)
Theorem startup_fails_fast (fs : Files) :
  (forall e, model_pkl fs = Raise e ->
     startup fs
     = Aborted (RuntimeError ("Error loading model or scaler: " ++ str e)))
  /\ (forall e, scaler_pkl fs = Raise e ->
        exists e', startup fs
          = Aborted (RuntimeError ("Error loading model or scaler: " ++ str e')))
  /\ (forall m e, model_pkl fs = Ok m -> scaler_pkl fs = Raise e ->
        startup fs
        = Aborted (RuntimeError ("Error loading model or scaler: " ++ str e)))
  /\ (forall e, (model_pkl fs = Raise e \/ scaler_pkl fs = Raise e) ->
        forall data, serve (startup fs) data = None)
  /\ (forall model scaler, startup fs = Serving model scaler ->
        model_pkl fs = Ok model /\ scaler_pkl fs = Ok scaler)
  /\ (forall data r, serve (startup fs) data = Some r ->
        exists model scaler,
          model_pkl fs = Ok model /\ scaler_pkl fs = Ok scaler
          /\ r = predict scaler model data).
Proof.
  unfold startup, load_artifacts.
  destruct (model_pkl fs) as [m | em]; destruct (scaler_pkl fs) as [s | es];
    simpl; repeat split; intros; try discriminate;
    repeat match goal with
           | H : Ok _ = Ok _ |- _ => injection H as <-
           | H : Raise _ = Raise _ |- _ => injection H as <-
           | H : Serving _ _ = Serving _ _ |- _ => injection H as <- <-
           | H : Some _ = Some _ |- _ => injection H as <-
           | H : _ \/ _ |- _ => destruct H; try discriminate
           end;
    try reflexivity.
  - exists m, s. repeat split.
  - exists es. reflexivity.
  - exists em. reflexivity.
Qed.

Lemma startup_fails_fast_witness :
  startup no_files
  = Aborted (RuntimeError "Error loading model or scaler: No such file: model.pkl")
  /\ startup no_scaler_file
     = Aborted (RuntimeError "Error loading model or scaler: No such file: scaler.pkl")
  /\ serve (startup no_scaler_file) example_record = None.
Proof.
  split; [| split].
  - apply (proj1 (startup_fails_fast no_files)
             (OtherError "FileNotFoundError" "No such file: model.pkl")).
    reflexivity.
  - apply (proj1 (proj2 (proj2 (startup_fails_fast no_scaler_file)))
             sum_model
             (OtherError "FileNotFoundError" "No such file: scaler.pkl")).
    + reflexivity.
    + reflexivity.
  - apply (proj1 (proj2 (proj2 (proj2 (startup_fails_fast no_scaler_file))))
             (OtherError "FileNotFoundError" "No such file: scaler.pkl")).
    right. reflexivity.
Defined.

(** ** The two counts *)

(** C10, as amended. On a request whose integer fields fit 64 bits,
    amenities_count is luxury_index plus mainroad_yes plus prefarea_yes in
    the int64 column arithmetic, that is modulo 2^64 read as a signed 64-bit
    integer; the equation holds between the integers whenever the right-hand
    side fits 64 bits, in particular for fields that are 0 or 1. *)
Theorem amenities_exceed_luxury (scaler : Scaler) (data : HouseData)
        (scaled : value) :
  transform scaler (VFloat (area data)) = Ok scaled ->
  int64_record data ->
  exists am lx : Z,
    feature scaler data "amenities_count" = Ok (VInt am)
    /\ feature scaler data "luxury_index" = Ok (VInt lx)
    /\ VInt am = vadd (vadd (VInt lx) (VInt (mainroad_yes data)))
                      (VInt (prefarea_yes data))
    /\ am = Int64.wrap64 (lx + mainroad_yes data + prefarea_yes data)
    /\ (Int64.in_range (lx + mainroad_yes data + prefarea_yes data) ->
        am = lx + mainroad_yes data + prefarea_yes data)
    /\ (binary_amenities data ->
        am = lx + mainroad_yes data + prefarea_yes data).
Proof.
  intros H _.
  exists (Int64.wrap64 (amenity_sum data)), (Int64.wrap64 (luxury_sum data)).
  assert (E : Int64.wrap64 (amenity_sum data)
              = Int64.wrap64 (Int64.wrap64 (luxury_sum data)
                              + mainroad_yes data + prefarea_yes data)).
  { replace (Int64.wrap64 (luxury_sum data) + mainroad_yes data + prefarea_yes data)
      with (Int64.wrap64 (luxury_sum data) + (mainroad_yes data + prefarea_yes data))
      by lia.
    rewrite wrap64_add_l. f_equal. unfold amenity_sum, luxury_sum. lia. }
  split; [| split; [| split; [| split; [| split]]]].
  - rewrite (feature_of_assembled scaler data scaled _ H).
    cbn -[fold_left]. rewrite amenity_fold. reflexivity.
  - rewrite (feature_of_assembled scaler data scaled _ H).
    cbn. rewrite luxury_chain. reflexivity.
  - cbn [vadd]. f_equal. rewrite add_wrap_l.
    unfold Int64.add. rewrite wrap64_add_l.
    f_equal. unfold amenity_sum, luxury_sum. lia.
  - exact E.
  - intros R. rewrite E. apply wrap64_in_range. exact R.
  - intros B. destruct (binary_amenities_in_range data B) as [RL RA].
    rewrite (wrap64_in_range _ RA), (wrap64_in_range _ RL).
    unfold amenity_sum, luxury_sum. lia.
Qed.

Lemma amenities_exceed_luxury_witness :
  exists am lx : Z,
    feature identity_scaler example_record "amenities_count" = Ok (VInt am)
    /\ feature identity_scaler example_record "luxury_index" = Ok (VInt lx)
    /\ am = lx + 1 + 0.
Proof.
  assert (I64 : int64_record example_record) by int64_record_by_evaluation.
  destruct (amenities_exceed_luxury identity_scaler example_record
              (VFloat 1000) eq_refl I64) as (am & lx & A & L & _ & _ & R & _).
  exists am, lx. split; [exact A | split; [exact L |]].
  apply R.
  assert (E : Ok (VInt lx) = Ok (VInt 1))
    by (rewrite <- L; reflexivity).
  injection E as ->.
  vm_compute. split; discriminate.
Defined.

(** C10 as it was stated fails: with mainroad_yes = 2^63 - 1 and
    prefarea_yes = 1, both int64, and the other amenity fields 0,
    luxury_index is 0 and amenities_count wraps to -2^63, which is not
    0 + (2^63 - 1) + 1. *)
Lemma amenities_exceed_luxury_overflow :
  int64_record road_overflow_record
  /\ feature identity_scaler road_overflow_record "luxury_index" = Ok (VInt 0)
  /\ feature identity_scaler road_overflow_record "amenities_count"
     = Ok (VInt (- 2 ^ 63))
  /\ - 2 ^ 63 <> 0 + mainroad_yes road_overflow_record
                   + prefarea_yes road_overflow_record.
Proof.
  split; [int64_record_by_evaluation | split; [| split]].
  - vm_compute. reflexivity.
  - vm_compute. reflexivity.
  - vm_compute. discriminate.
Qed.

(** * Further properties of the handler and of the frame operations *)

(** ** Lookup and assignment on the frame *)

Lemma getitem_Ok_In (df : DataFrame) (k : string) (v : value) :
  Frame.getitem df k = Ok v -> In (k, v) df.
Proof.
  induction df as [| [k0 v0] rest IH]; simpl; [discriminate |].
  destruct (String.eqb k0 k) eqn:E.
  - intros H. injection H as <-. apply String.eqb_eq in E. subst k0.
    left. reflexivity.
  - intros H. right. apply IH. exact H.
Qed.

(** X1. [df[key]] succeeds exactly on a column of the frame, with a cell
    that stands in the frame under that name; on any other name it raises
    [KeyError] carrying the name asked for. *)
Theorem getitem_spec (df : DataFrame) (k : string) :
  (In k (Frame.columns df) ->
   exists v, Frame.getitem df k = Ok v /\ In (k, v) df)
  /\ (~ In k (Frame.columns df) -> Frame.getitem df k = Raise (KeyError k))
  /\ (forall e, Frame.getitem df k = Raise e ->
                e = KeyError k /\ ~ In k (Frame.columns df)).
Proof.
  induction df as [| [k0 v0] rest (IHin & IHout & IHe)]; simpl.
  - split; [intros [] | split; [reflexivity |]].
    intros e H. injection H as <-. split; [reflexivity | intros []].
  - destruct (String.eqb k0 k) eqn:E.
    + apply String.eqb_eq in E. subst k0.
      split; [| split].
      * intros _. exists v0. split; [reflexivity | left; reflexivity].
      * intros N. exfalso. apply N. left. reflexivity.
      * intros e H. discriminate H.
    + apply String.eqb_neq in E.
      split; [| split].
      * intros [H | H]; [contradiction |].
        destruct (IHin H) as (v & G & I).
        exists v. split; [exact G | right; exact I].
      * intros N. apply IHout. intros H. apply N. right. exact H.
      * intros e H. destruct (IHe e H) as [-> N].
        split; [reflexivity |]. intros [H' | H']; [contradiction | exact (N H')].
Qed.

Lemma getitem_spec_witness :
  Frame.getitem (dict example_record) "price" = Raise (KeyError "price").
Proof.
  apply (proj1 (proj2 (getitem_spec (dict example_record) "price"))).
  intros H. simpl in H.
  repeat (destruct H as [H | H]; [discriminate H |]). exact H.
Defined.

Lemma setitem_present (df : DataFrame) (k : string) (v : value) :
  In k (Frame.columns df) ->
  Frame.columns (Frame.setitem df k v) = Frame.columns df.
Proof.
  induction df as [| [k0 v0] rest IH]; simpl; intros J; [contradiction |].
  destruct (String.eqb k0 k) eqn:E; [reflexivity |].
  simpl. f_equal. apply IH. destruct J as [J | J]; [| exact J].
  apply String.eqb_neq in E. contradiction.
Qed.

Lemma setitem_fresh (df : DataFrame) (k : string) (v : value) :
  ~ In k (Frame.columns df) ->
  Frame.setitem df k v = (df ++ [(k, v)])%list.
Proof.
  induction df as [| [k0 v0] rest IH]; simpl; intros N; [reflexivity |].
  destruct (String.eqb k0 k) eqn:E.
  - apply String.eqb_eq in E. exfalso. apply N. left. exact E.
  - f_equal. apply IH. intros H. apply N. right. exact H.
Qed.

(** X2. After [df[key] = v], [df[key]] is [v] and every other column reads
    as before; column names that were distinct stay distinct. *)
Theorem getitem_setitem (df : DataFrame) (k : string) (v : value) :
  Frame.getitem (Frame.setitem df k v) k = Ok v
  /\ (forall k', k' <> k ->
        Frame.getitem (Frame.setitem df k v) k' = Frame.getitem df k')
  /\ (NoDup (Frame.columns df) ->
      NoDup (Frame.columns (Frame.setitem df k v))).
Proof.
  split; [| split].
  - induction df as [| [k0 v0] rest IH]; simpl.
    + rewrite String.eqb_refl. reflexivity.
    + destruct (String.eqb k0 k) eqn:E; simpl; rewrite E; [reflexivity | exact IH].
  - intros k' N.
    induction df as [| [k0 v0] rest IH]; simpl.
    + destruct (String.eqb k k') eqn:E; [| reflexivity].
      apply String.eqb_eq in E. congruence.
    + destruct (String.eqb k0 k) eqn:E; simpl.
      * apply String.eqb_eq in E. subst k0.
        destruct (String.eqb k k') eqn:E'; [| reflexivity].
        apply String.eqb_eq in E'. congruence.
      * destruct (String.eqb k0 k'); [reflexivity | exact IH].
  - intros H.
    destruct (in_dec string_dec k (Frame.columns df)) as [I | I].
    + rewrite (setitem_present df k v I). exact H.
    + rewrite (setitem_fresh df k v I).
      unfold Frame.columns. rewrite map_app. simpl.
      apply NoDup_app; [exact H | constructor; [intros [] | constructor] |].
      intros x Hx [<- | []]. exact (I Hx).
Qed.

Lemma getitem_setitem_witness :
  Frame.getitem (Frame.setitem (dict example_record) "area" (VFloat 1)) "bedrooms"
  = Frame.getitem (dict example_record) "bedrooms".
Proof.
  apply (proj1 (proj2 (getitem_setitem (dict example_record) "area" (VFloat 1)))).
  discriminate.
Defined.

(** X3. An assignment to an existing column leaves the column order as it
    is and replaces one cell; an assignment to a new name adds the column
    after the last one. *)
Theorem setitem_columns (df : DataFrame) (k : string) (v : value) :
  (In k (Frame.columns df) ->
   Frame.columns (Frame.setitem df k v) = Frame.columns df
   /\ List.length (Frame.setitem df k v) = List.length df)
  /\ (~ In k (Frame.columns df) ->
      Frame.setitem df k v = (df ++ [(k, v)])%list).
Proof.
  split.
  - intros I. pose proof (setitem_present df k v I) as C.
    split; [exact C |].
    unfold Frame.columns in C.
    rewrite <- (length_map fst (Frame.setitem df k v)), C.
    apply length_map.
  - apply setitem_fresh.
Qed.

Lemma setitem_columns_witness :
  Frame.setitem (dict example_record) "area_bedrooms" (VFloat 2000)
  = (dict example_record ++ [("area_bedrooms", VFloat 2000)])%list.
Proof.
  apply (proj2 (setitem_columns (dict example_record) "area_bedrooms"
                  (VFloat 2000))).
  intros H. simpl in H.
  repeat (destruct H as [H | H]; [discriminate H |]). exact H.
Defined.

Lemma getitem_cases (df : DataFrame) (k : string) :
  (exists v, Frame.getitem df k = Ok v /\ In k (Frame.columns df))
  \/ (Frame.getitem df k = Raise (KeyError k) /\ ~ In k (Frame.columns df)).
Proof.
  induction df as [| [k0 v0] rest IH]; simpl.
  - right. split; [reflexivity | intros []].
  - destruct (String.eqb k0 k) eqn:E.
    + apply String.eqb_eq in E. left. exists v0.
      split; [reflexivity | left; exact E].
    + apply String.eqb_neq in E.
      destruct IH as [(v & G & I) | (G & N)].
      * left. exists v. split; [exact G | right; exact I].
      * right. split; [exact G |].
        intros [H | H]; [contradiction | exact (N H)].
Qed.

(** X4. [df[keys]] with every key a column of the frame returns exactly the
    listed columns, in the order of the list, each with the cell it has in
    the frame.  It raises exactly when some key of the list is not a column
    of the frame. *)
Theorem getitem_list_spec (df : DataFrame) (keys : list string) :
  ((forall k, In k keys -> In k (Frame.columns df)) ->
   exists sel,
     Frame.getitem_list df keys = Ok sel
     /\ Frame.columns sel = keys
     /\ Forall (fun c => Frame.getitem df (fst c) = Ok (snd c)) sel)
  /\ (forall e, Frame.getitem_list df keys = Raise e ->
      exists k, In k keys /\ ~ In k (Frame.columns df))
  /\ (forall k, In k keys -> ~ In k (Frame.columns df) ->
      exists e, Frame.getitem_list df keys = Raise e).
Proof.
  induction keys as [| k ks (IHok & IHerr & IHmiss)]; simpl.
  - split; [| split].
    + intros _. exists []. repeat split. constructor.
    + intros e H. discriminate H.
    + intros k [].
  - split; [| split].
    + intros A.
      destruct (getitem_cases df k) as [(v & G & _) | (_ & N)].
      * destruct IHok as (sel & S & C & F).
        { intros k' I. apply A. right. exact I. }
        exists ((k, v) :: sel). rewrite G, S. simpl.
        split; [reflexivity | split; [f_equal; exact C |]].
        constructor; [exact G | exact F].
      * exfalso. apply N, A. left. reflexivity.
    + intros e H.
      destruct (getitem_cases df k) as [(v & G & I) | (G & N)].
      * rewrite G in H. simpl in H.
        destruct (Frame.getitem_list df ks) as [sel | e'] eqn:S;
          simpl in H; [discriminate H |].
        destruct (IHerr e' eq_refl) as (k1 & K & N).
        exists k1. split; [right; exact K | exact N].
      * exists k. split; [left; reflexivity | exact N].
    + intros k' I N.
      destruct (getitem_cases df k) as [(v & G & J) | (G & _)].
      * rewrite G. simpl.
        destruct I as [<- | I]; [contradiction |].
        destruct (IHmiss k' I N) as (e & E).
        exists e. rewrite E. reflexivity.
      * rewrite G. simpl. exists (KeyError k). reflexivity.
Qed.

Lemma getitem_list_spec_witness :
  (exists k, In k [ "area"; "price"; "bedrooms" ]
             /\ ~ In k (Frame.columns (dict example_record)))
  /\ (exists e, Frame.getitem_list (dict example_record)
                  [ "area"; "price"; "bedrooms" ] = Raise e).
Proof.
  split.
  - apply (proj1 (proj2 (getitem_list_spec (dict example_record)
                           [ "area"; "price"; "bedrooms" ]))
             (KeyError "price")).
    reflexivity.
  - apply (proj2 (proj2 (getitem_list_spec (dict example_record)
                           [ "area"; "price"; "bedrooms" ])) "price").
    + right. left. reflexivity.
    + intros H. simpl in H.
      repeat (destruct H as [H | H]; [discriminate H |]). exact H.
Defined.

(** ** The row sum *)

Lemma ints_int_frame (cols : list (string * Z)) :
  Frame.ints (Frame.values (int_frame cols)) = Some (map snd cols).
Proof.
  unfold Frame.values, int_frame.
  induction cols as [| [k z] rest IH]; simpl; [reflexivity |].
  rewrite IH. reflexivity.
Qed.

Lemma fold_add_wrap (zs : list Z) (a : Z) :
  fold_left Int64.add zs (Int64.wrap64 a) = Int64.wrap64 (a + zsum zs).
Proof.
  revert a. induction zs as [| z rest IH]; intros a; simpl.
  - f_equal. lia.
  - rewrite add_wrap_l, IH. f_equal. lia.
Qed.

Lemma zsum_Permutation (xs ys : list Z) :
  Permutation xs ys -> zsum xs = zsum ys.
Proof.
  induction 1; simpl; lia.
Qed.

(** X5. [sum(axis=1)] over int64 columns is the sum of the cells modulo
    2^64, read as a signed 64-bit integer; it is the integer sum itself when
    that fits, and it does not depend on the order of the columns. *)
Theorem sum_axis1_int_frame (cols : list (string * Z)) :
  cols <> [] ->
  Frame.sum_axis1 (int_frame cols) = VInt (Int64.wrap64 (zsum (map snd cols)))
  /\ (Int64.in_range (zsum (map snd cols)) ->
      Frame.sum_axis1 (int_frame cols) = VInt (zsum (map snd cols)))
  /\ (forall cols', Permutation cols cols' ->
      Frame.sum_axis1 (int_frame cols') = Frame.sum_axis1 (int_frame cols)).
Proof.
  intros _.
  assert (S : forall c, Frame.sum_axis1 (int_frame c)
                        = VInt (Int64.wrap64 (zsum (map snd c)))).
  { intros c. unfold Frame.sum_axis1. rewrite ints_int_frame.
    change 0 with (Int64.wrap64 0) at 1. rewrite fold_add_wrap. reflexivity. }
  split; [apply S | split].
  - intros R. rewrite S, (wrap64_in_range _ R). reflexivity.
  - intros cols' P. rewrite !S. do 2 f_equal.
    symmetry. apply zsum_Permutation, Permutation_map, P.
Qed.

Lemma sum_axis1_int_frame_witness :
  Frame.sum_axis1 (int_frame [("a", 2 ^ 63 - 1); ("b", 1)]) = VInt (- 2 ^ 63)
  /\ Frame.sum_axis1 (int_frame [("b", 1); ("a", 2 ^ 63 - 1)]) = VInt (- 2 ^ 63).
Proof.
  assert (N : [("a", 2 ^ 63 - 1); ("b", 1)] <> []) by discriminate.
  destruct (sum_axis1_int_frame [("a", 2 ^ 63 - 1); ("b", 1)] N) as (S & _ & P).
  split.
  - exact S.
  - rewrite (P [("b", 1); ("a", 2 ^ 63 - 1)] (perm_swap _ _ _)). exact S.
Defined.

(** ** The handler, step by step *)

Lemma features_after_engineer (scaler : Scaler) (data : HouseData) :
  features scaler data =
  (df <- engineer scaler data ;; Frame.getitem_list df feature_order).
Proof.
  unfold features, engineer.
  destruct data; simpl.
  destruct (transform scaler (VFloat area0)) as [scaled | e]; reflexivity.
Qed.

Lemma engineer_closed_form (scaler : Scaler) (data : HouseData) :
  engineer scaler data =
  (scaled <- transform scaler (VFloat (area data)) ;;
   Ok (firstn 14 (assembled scaled data)
       ++ rev (skipn 14 (assembled scaled data)))%list).
Proof.
  unfold engineer, assembled.
  destruct data; simpl.
  destruct (transform scaler (VFloat area0)) as [scaled | e]; simpl.
  - reflexivity.
  - reflexivity.
Qed.





(** X8. On a request whose integer fields fit 64 bits, and when the scaler
    returns a float or an integer that fits, every integer cell of the frame
    handed to the model fits 64 bits: the int64 columns cannot leave their
    range, whatever the products and sums. *)
Theorem int_cells_stay_int64 (scaler : Scaler) (data : HouseData)
        (scaled : value) :
  transform scaler (VFloat (area data)) = Ok scaled ->
  int64_record data ->
  cell_in_range scaled ->
  exists df,
    features scaler data = Ok df
    /\ Forall cell_in_range (Frame.values df).
Proof.
  intros H R S.
  exists (assembled scaled data). split.
  - rewrite features_closed_form, H. reflexivity.
  - apply assembled_cells_in_range; assumption.
Qed.

Lemma int_cells_stay_int64_witness :
  exists df,
    features identity_scaler
      (with_mainroad_prefarea example_record (2 ^ 63 - 1) (2 ^ 63 - 1)) = Ok df
    /\ Forall cell_in_range (Frame.values df)
    /\ Frame.getitem df "amenities_count" = Ok (VInt (-1)).
Proof.
  destruct (int_cells_stay_int64 identity_scaler
              (with_mainroad_prefarea example_record (2 ^ 63 - 1) (2 ^ 63 - 1))
              (VFloat 1000) eq_refl) as (df & F & C).
  - unfold int64_record.
    repeat (apply Forall_cons; [vm_compute; split; discriminate |]).
    apply Forall_nil.
  - exact I.
  - exists df. split; [exact F | split; [exact C |]].
    assert (E : Ok df = features identity_scaler
                  (with_mainroad_prefarea example_record (2 ^ 63 - 1) (2 ^ 63 - 1)))
      by (symmetry; exact F).
    injection E as ->. vm_compute. reflexivity.
Defined.

(** ** Not-a-number *)

Lemma nan_mul_l (y : float) : (nan * y)%float = nan.
Proof.
  apply Prim2SF_inj. rewrite mul_spec.
  change (Prim2SF nan) with S754_nan. reflexivity.
Qed.



(** ** What the derived features depend on *)



(** ** What escapes a failed start-up *)

(** X11. Whatever exception the deserializer raised, what the module's
    loading code raises is a [RuntimeError]: its message is the fixed prefix
    followed by the text of the first load that failed, the model's when
    both would fail, and the class of the original exception is not kept. *)
Theorem startup_abort_inv (fs : Files) (e : exn) :
  startup fs = Aborted e ->
  exists e0,
    e = RuntimeError ("Error loading model or scaler: " ++ str e0)
    /\ (model_pkl fs = Raise e0
        \/ exists model, model_pkl fs = Ok model /\ scaler_pkl fs = Raise e0).
Proof.
  unfold startup, load_artifacts.
  destruct (model_pkl fs) as [m | em]; simpl.
  - destruct (scaler_pkl fs) as [s | es]; simpl; intros H.
    + discriminate H.
    + injection H as <-. exists es.
      split; [reflexivity |]. right. exists m. split; reflexivity.
  - intros H. injection H as <-. exists em.
    split; [reflexivity |]. left. reflexivity.
Qed.

Lemma startup_abort_inv_witness :
  exists e0,
    RuntimeError "Error loading model or scaler: No such file: model.pkl"
    = RuntimeError ("Error loading model or scaler: " ++ str e0)
    /\ (model_pkl no_files = Raise e0
        \/ exists model, model_pkl no_files = Ok model
                         /\ scaler_pkl no_files = Raise e0).
Proof.
  apply (startup_abort_inv no_files). reflexivity.
Defined.
